(** * GeoPackage output driver of mapchete: [mapchete/formats/default/gpkg.py]

    A shallow embedding of the two classes of the driver, [InputTile] (the
    cached read path) and [OutputDataWriter] (the write path and the
    configuration check), and the properties of the design document that
    concern them.

    Python objects with mutable attributes are modelled by explicit state
    passing in a small state-and-exception monad; every call to a
    collaborator that lives outside this file (the tile pyramid, the path
    helpers of the base class, the upstream process) is recorded in the
    state so that calls can be counted.  A global name that the module
    uses without binding it raises [NameError] where it is evaluated. *)

From stdpp Require Import gmap strings list fin_maps.

(** ** Python-level preliminaries *)

Module Py.

(** Exceptions that can travel through the driver.  [Raised] stands for any
    exception class of a collaborator (codec, process, ...). *)
Inductive exn : Type :=
  | TypeError (msg : string)
  | NotImplementedError
  | KeyError (key : string)
  | NameError (name : string)
  | ValidationError (key : string)
  | Raised (cls : string) (msg : string).

#[export] Instance exn_eq_dec : EqDecision exn.
Proof. solve_decision. Defined.

(** Outcome of a call: an exception or a returned value. *)
Definition result (A : Type) : Type := exn + A.

(** State-and-exception monad: the state that was reached when an exception
    is raised is kept, as in Python (effects are not rolled back). *)
Definition M (S A : Type) : Type := S → result A * S.

#[export] Instance M_ret {S} : MRet (M S) :=
  λ A (a : A) (s : S), (inr a, s).

#[export] Instance M_bind {S} : MBind (M S) :=
  λ A B (k : A → M S B) (m : M S A) (s : S),
    match m s with
    | (inl e, s') => (inl e, s')
    | (inr a, s') => k a s'
    end.

#[export] Instance result_ret : MRet result := λ A (a : A), inr a.

#[export] Instance result_bind : MBind result :=
  λ A B (k : A → result B) (r : result A),
    match r with
    | inl e => inl e
    | inr a => k a
    end.

Definition raise {S A} (e : exn) : M S A := λ s, (inl e, s).
Definition get {S} : M S S := λ s, (inr s, s).
Definition modify {S} (f : S → S) : M S unit := λ s, (inr tt, f s).
Definition lift {S A} (r : result A) : M S A := λ s, (r, s).

(** [for x in xs: body x] *)
Fixpoint for_each {S A} (xs : list A) (body : A → M S unit) : M S unit :=
  match xs with
  | [] => mret tt
  | x :: xs' => body x;; for_each xs' body
  end.

(** The JSON-like values a configuration mapping can hold. *)
#[warnings="-register-all"] Inductive pyval : Type :=
  | VNone
  | VBool (b : bool)
  | VInt (z : Z)
  | VStr (s : string)
  | VList (l : list pyval)
  | VDict (d : gmap string pyval).

(** The two classes the driver passes to [isinstance] on configuration
    values. *)
Inductive pytype : Type := dict | str.

Definition isinstance (v : pyval) (ty : pytype) : bool :=
  match ty, v with
  | dict, VDict _ => true
  | str, VStr _ => true
  | _, _ => false
  end.

(** [v[key]] *)
Definition getitem (v : pyval) (key : string) : result pyval :=
  match v with
  | VDict d =>
      match d !! key with
      | Some x => inr x
      | None => inl (KeyError key)
      end
  | _ => inl (TypeError "object is not subscriptable")
  end.

(** [v in strs] for a list literal of strings: list membership compares
    with [==], and only a string equals a string. *)
Definition in_strs (v : pyval) (strs : list string) : bool :=
  match v with
  | VStr s => bool_decide (s ∈ strs)
  | _ => false
  end.

End Py.

Import Py.

(** ** The names of the module *)

(** The global names that [gpkg.py] binds, besides those every module has
    (such as [__name__]): the modules and the class it imports (lines 1 to
    6), [logger] and [METADATA] (lines 9 and 10) and its two classes. *)
Definition module_names : list string :=
  ["fiona"; "logging"; "types"; "base"; "BufferedTile";
   "logger"; "METADATA"; "OutputDataWriter"; "InputTile"].

(** Evaluation of a global name that is no builtin: it succeeds when the
    module binds the name and raises [NameError] when it does not. *)
Definition lookup_global (name : string) : result unit :=
  if bool_decide (name ∈ module_names) then inr tt
  else inl (NameError name).

Definition load_global {S} (name : string) : M S unit :=
  lift (lookup_global name).

(** ** Configuration check *)

(** Modelled from the spec: [validate_values], the key/type-pair helper that
    [is_valid_with_config] names, is not part of this file.  The design
    document (4.1) gives its contract: every listed key has to be present in
    the mapping with a value of the listed type, else the call fails with a
    validation error naming the missing or mistyped key.  A value that is
    no mapping contains no key.  The module does not bind the name (see
    [module_names]), so no call of the driver ever gets as far as this
    helper. *)
Fixpoint validate_values (config : pyval) (values : list (string * pytype))
  : result unit :=
  match values with
  | [] => inr tt
  | (key, ty) :: rest =>
      match config with
      | VDict d =>
          match d !! key with
          | Some v =>
              if isinstance v ty then validate_values config rest
              else inl (ValidationError key)
          | None => inl (ValidationError key)
          end
      | _ => inl (ValidationError key)
      end
  end.

(** ** Tiles *)

(** A tile identifier of a pyramid. *)
Record Tile : Type := { zoom : Z; row : Z; col : Z }.

#[export] Instance Tile_eq_dec : EqDecision Tile.
Proof. solve_decision. Defined.

#[export] Instance Tile_countable : Countable Tile :=
  inj_countable'
    (λ t, (zoom t, row t, col t))
    (λ p, {| zoom := p.1.1; row := p.1.2; col := p.2 |})
    (λ t, match t with Build_Tile _ _ _ => eq_refl end).

(** [BufferedTile(tile, pixelbuffer)] of [mapchete.tile]: a tile together
    with the buffer applied around it. *)
Record BufferedTile : Type := { bt_tile : Tile; bt_pixelbuffer : Z }.

#[export] Instance BufferedTile_eq_dec : EqDecision BufferedTile.
Proof. solve_decision. Defined.

(** The output pyramid ([tilematrix.TilePyramid]).  The design document
    (section 6) gives [intersecting] as a pure function from a tile to the
    set of tiles of this pyramid that overlap it. *)
Record TilePyramid : Type := { intersecting : BufferedTile → gset Tile }.

(** ** class InputTile *)

Module InputTile.

Section View.

Context {Feature : Type}.

(** The upstream process ([MapcheteProcess]) is an object with state of its
    own: [get_raw_output(tile)] returns a feature list or raises, and may
    change the process while doing so.  It takes the tile and nothing
    else. *)
Context {Process : Type}.
Variable get_raw_output : Process → Tile → result (list Feature) * Process.

(** The attributes set by [__init__].  [process] holds the current state of
    the process the view refers to. *)
Record t : Type := {
  tile : Tile;
  process : Process;
  _cache : gmap bool (list Feature)
}.

(** A view together with the log of the [get_raw_output] calls made through
    it (the tile of each call, oldest first). *)
Record state : Type := { self : t; raw_calls : list Tile }.

(** Attribute assignments [self.process = p] (what a call does to the
    process the view refers to) and [self._cache = c]. *)
Definition set_process (p : Process) (v : t) : t :=
  {| tile := tile v; process := p; _cache := _cache v |}.

Definition set_cache (c : gmap bool (list Feature)) (v : t) : t :=
  {| tile := tile v; process := process v; _cache := c |}.

(** The state after one more call of [get_raw_output] that left the
    process in [p]. *)
Definition called (p : Process) (st : state) : state :=
  {| self := set_process p (self st);
     raw_calls := raw_calls st ++ [tile (self st)] |}.

(** The state after [self._cache[key] = value]. *)
Definition cached (key : bool) (value : list Feature) (st : state) : state :=
  {| self := set_cache (<[key := value]> (_cache (self st))) (self st);
     raw_calls := raw_calls st |}.

(** The state after [self._cache = {}]. *)
Definition cleared (st : state) : state :=
  {| self := set_cache ∅ (self st); raw_calls := raw_calls st |}.

(** [InputTile(tile, process)] *)
Definition __init__ (tile : Tile) (process : Process) : t :=
  {| tile := tile; process := process; _cache := ∅ |}.

(** [self.process.get_raw_output(self.tile)] *)
Definition call_get_raw_output : M state (list Feature) :=
  λ st,
    let '(r, p) := get_raw_output (process (self st)) (tile (self st)) in
    (r, called p st).

(** [self._cache[key] = value] *)
Definition cache_setitem (key : bool) (value : list Feature) : M state unit :=
  modify (cached key value).

(** [self._cache[key]] *)
Definition cache_getitem (key : bool) : M state (list Feature) :=
  st ← get;
  match _cache (self st) !! key with
  | Some value => mret value
  | None => raise (KeyError (if key then "True" else "False"))
  end.

(** [_from_cache(self, validity_check=True)] *)
Definition _from_cache (validity_check : bool) : M state (list Feature) :=
  st ← get;
  (if negb (bool_decide (validity_check ∈ dom (_cache (self st)))) then
     value ← call_get_raw_output;
     cache_setitem validity_check value
   else mret tt);;
  cache_getitem validity_check.

(** [read(self, validity_check=True, no_neighbors=False, **kwargs)] *)
Definition read (validity_check no_neighbors : bool)
    (kwargs : gmap string pyval) : M state (list Feature) :=
  if no_neighbors then raise NotImplementedError
  else _from_cache validity_check.

(** [is_empty(self, validity_check=True)] *)
Definition is_empty (validity_check : bool) : M state bool :=
  data ← _from_cache validity_check;
  mret (length data =? 0).

(** [__enter__(self)] *)
Definition __enter__ : M state t :=
  st ← get; mret (self st).

(** [__exit__(self, t, v, tb)]: the three arguments describe the exception
    that ends the block, or are all [None]; the method returns [None]. *)
Definition __exit__ (exc : option exn) : M state unit :=
  modify cleared.

(** The [with view: body] statement of Python: [__enter__], the block, then
    [__exit__] on every way out of the block.  [__exit__] returns [None],
    which is false, so an exception of the block is raised again after
    it. *)
Definition with_ {A} (body : t → M state A) : M state A :=
  λ st,
    match __enter__ st with
    | (inl e, st1) => (inl e, st1)
    | (inr v, st1) =>
        match body v st1 with
        | (inr a, st2) =>
            match __exit__ None st2 with
            | (inr _, st3) => (inr a, st3)
            | (inl e', st3) => (inl e', st3)
            end
        | (inl e, st2) =>
            match __exit__ (Some e) st2 with
            | (inr _, st3) => (inl e, st3)
            | (inl e', st3) => (inl e', st3)
            end
        end
    end.

(** A process whose answer for a tile does not depend on the state it is
    in: every call for one tile gives the same outcome. *)
Definition deterministic : Prop :=
  ∀ p p' tile, (get_raw_output p tile).1 = (get_raw_output p' tile).1.

(** A call a user of the view can make. *)
Inductive call : Type :=
  | Read (validity_check no_neighbors : bool) (kwargs : gmap string pyval)
  | IsEmpty (validity_check : bool).

(** The view after a call, whether the call returned or raised. *)
Definition after (c : call) (st : state) : state :=
  match c with
  | Read validity_check no_neighbors kwargs =>
      (read validity_check no_neighbors kwargs st).2
  | IsEmpty validity_check => (is_empty validity_check st).2
  end.

(** The view after a series of calls, each made whatever became of the one
    before it (the caller may catch what a call raises). *)
Definition after_all (calls : list call) (st : state) : state :=
  foldl (λ st c, after c st) st calls.

(** A process none of whose calls raises. *)
Definition never_raises : Prop :=
  ∀ p tile, ∃ v p', get_raw_output p tile = (inr v, p').

End View.

End InputTile.

(** ** class OutputDataWriter *)

Module OutputDataWriter.

(** The attributes of a writer that the methods of this file read. *)
Record t : Type := {
  pyramid : TilePyramid;
  pixelbuffer : Z;
  output_params : gmap string pyval
}.

(** The enumeration spelled out in [is_valid_with_config]. *)
Definition GEOMETRY_TYPES : list string :=
  ["Geometry"; "Point"; "MultiPoint"; "Line"; "MultiLine";
   "Polygon"; "MultiPolygon"].

(** [is_valid_with_config(self, config)]: returns [True] or raises. *)
Definition is_valid_with_config (self : t) (config : pyval) : result bool :=
  lookup_global "validate_values";;
  validate_values config [("schema", dict); ("path", str)];;
  lookup_global "validate_values";;
  schema ← getitem config "schema";
  validate_values schema [("properties", dict); ("geometry", str)];;
  schema ← getitem config "schema";
  geometry ← getitem schema "geometry";
  if negb (in_strs geometry GEOMETRY_TYPES)
  then inl (TypeError "invalid geometry type")
  else mret true.

Section Write.

(** Records of a feature batch (GeoJSON-like objects), storage paths and the
    bucket handle are opaque to the driver. *)
Context {Feature Path BucketResource : Type}.

(** [get_path] is a method of the base class, which is not given here.  By
    the design document (4.2) the path is a function of the tile identifier
    and the output parameters. *)
Variable get_path : gmap string pyval → Tile → Path.

(** What the name [bucket_resource] would stand for.  [write] evaluates the
    name as a global (line 97), and the module does not bind it. *)
Variable bucket_resource : BucketResource.

(** What can be passed as [data]: [None], a list, a generator (given by the
    items it would yield), or any other object (given by what [len] returns
    for it, if it has a length at all). *)
Inductive pydata : Type :=
  | DNone
  | DList (l : list Feature)
  | DGenerator (items : list Feature)
  | DOther (len_result : option nat).

(** Calls the writer makes on its collaborators, in program order.
    [Encode] is a call of [write_vector_window] (the vector codec) with its
    five keyword arguments, [PreparePath] a call of the base-class method
    that creates the parent directory, [Exhaust] the consumption of a
    generator, [LogDebug] a line handed to the logger.  A recorded call is
    taken to return. *)
Inductive event : Type :=
  | PreparePath (tile : Tile)
  | Encode (in_data : list Feature) (out_schema : pyval)
           (out_tile : BufferedTile) (out_path : Path)
           (bucket_resource : BucketResource)
  | Exhaust (items : list Feature)
  | LogDebug (msg : string).

Definition emit (e : event) : M (list event) unit :=
  modify (λ tr, tr ++ [e]).

(** [len(data)] *)
Definition len (data : pydata) : result nat :=
  match data with
  | DNone => inl (TypeError "object of type 'NoneType' has no len()")
  | DList l => inr (length l)
  | DGenerator _ => inl (TypeError "object of type 'generator' has no len()")
  | DOther (Some n) => inr n
  | DOther None => inl (TypeError "object has no len()")
  end.

(** [isinstance(data, (list, types.GeneratorType))] *)
Definition is_list_or_generator (data : pydata) : bool :=
  match data with
  | DList _ | DGenerator _ => true
  | _ => false
  end.

(** [list(data)]: a copy of a list; a generator is run to its end.  [write]
    gets here behind its [isinstance] guard only, with a list or a
    generator. *)
Definition to_list (data : pydata) : M (list event) (list Feature) :=
  match data with
  | DList l => mret l
  | DGenerator items => emit (Exhaust items);; mret items
  | _ => raise (TypeError "object is not iterable")
  end.

(** [self.prepare_path(tile)], a method of the base class: the call is
    recorded. *)
Definition prepare_path (self : t) (tile : Tile) : M (list event) unit :=
  emit (PreparePath tile).

(** What a call [write_vector_window(in_data=..., out_schema=...,
    out_tile=..., out_path=..., bucket_resource=...)] of the codec would
    be recorded as.  [write] evaluates the name as a global (line 92), and
    the module does not bind it. *)
Definition write_vector_window (in_data : list Feature) (out_schema : pyval)
    (out_tile : BufferedTile) (out_path : Path) (bucket : BucketResource)
  : M (list event) unit :=
  emit (Encode in_data out_schema out_tile out_path bucket).

(** [read(self, output_tile, **kwargs)] *)
Definition read (self : t) (output_tile : BufferedTile)
    (kwargs : gmap string pyval) : M (list event) (list Feature) :=
  raise NotImplementedError.

(** [write(self, process_tile, data)] *)
Definition write (self : t) (process_tile : BufferedTile) (data : pydata)
  : M (list event) unit :=
  stop ← match data with
         | DNone => mret true
         | _ => n ← lift (len data); mret (n =? 0)
         end;
  if (stop : bool) then mret tt
  else if negb (is_list_or_generator data) then
    raise (TypeError
      "GPKG driver data has to be a list or generator of GeoJSON objects")
  else
    data ← to_list data;
    if length data =? 0 then
      emit (LogDebug "no features to write")
    else
      for_each (elements (intersecting (pyramid self) process_tile))
        (λ tile,
           let out_path := get_path (output_params self) tile in
           prepare_path self tile;;
           let out_tile :=
             {| bt_tile := tile; bt_pixelbuffer := pixelbuffer self |} in
           load_global "write_vector_window";;
           out_schema ← lift (getitem (VDict (output_params self)) "schema");
           load_global "bucket_resource";;
           write_vector_window data out_schema out_tile out_path
             bucket_resource).

(** [empty(self, process_tile=None)] *)
Definition empty (self : t) (process_tile : option BufferedTile)
  : list Feature := [].

(** The codec calls of a trace that went to one output tile. *)
Definition is_encode_for (tile : Tile) (e : event) : bool :=
  match e with
  | Encode _ _ out_tile _ _ => bool_decide (bt_tile out_tile = tile)
  | _ => false
  end.

Definition encode_calls (tile : Tile) (tr : list event) : list event :=
  List.filter (is_encode_for tile) tr.

(** The two kinds of call in the loop of [write]. *)
Definition is_tile_call (e : event) : bool :=
  match e with
  | PreparePath _ | Encode _ _ _ _ _ => true
  | _ => false
  end.


End Write.

(** [open(self, tile, process)] *)
Definition open {Feature Process : Type} (self : t) (tile : Tile)
    (process : Process) : @InputTile.t Feature Process :=
  InputTile.__init__ tile process.

End OutputDataWriter.

(** ** Sample objects *)

Module Sample.

Definition tile_a : Tile := {| zoom := 5; row := 3; col := 7 |}.
Definition tile_b : Tile := {| zoom := 5; row := 3; col := 8 |}.
Definition tile_c : Tile := {| zoom := 5; row := 4; col := 7 |}.

Definition process_tile : BufferedTile :=
  {| bt_tile := {| zoom := 4; row := 1; col := 3 |}; bt_pixelbuffer := 0 |}.

(** A pyramid in which every tile meets the output tiles A and B only. *)
Definition two_tile_pyramid : TilePyramid :=
  {| intersecting := λ _, {[ tile_a; tile_b ]} |}.

Definition polygon_config : gmap string pyval :=
  {[ "schema" := VDict {[ "properties" := VDict {[ "id" := VStr "int" ]};
                          "geometry" := VStr "Polygon" ]};
     "path" := VStr "out/tiles" ]}.

Definition sample_writer : OutputDataWriter.t :=
  {| OutputDataWriter.pyramid := two_tile_pyramid;
     OutputDataWriter.pixelbuffer := 2;
     OutputDataWriter.output_params := polygon_config |}.

(** A writer whose pyramid has no tile that meets a process tile. *)
Definition remote_writer : OutputDataWriter.t :=
  {| OutputDataWriter.pyramid := {| intersecting := λ _, ∅ |};
     OutputDataWriter.pixelbuffer := 2;
     OutputDataWriter.output_params := polygon_config |}.

(** Paths as a pair of the configured base path and the tile. *)
Definition sample_get_path (params : gmap string pyval) (tile : Tile)
  : string * Tile :=
  (match params !! "path" with Some (VStr base) => base | _ => "" end, tile).

Definition three_points : list string := ["p1"; "p2"; "p3"].

(** A process that counts its calls and answers with the count. *)
Definition counting_process (n : nat) (tile : Tile) : result (list nat) * nat :=
  (inr [n], S n).

(** A process whose first call raises and whose later calls succeed. *)
Definition flaky_process (n : nat) (tile : Tile) : result (list nat) * nat :=
  match n with
  | 0 => (inl (Raised "IOError" "upstream output not ready"), 1)
  | S _ => (inr [n], S n)
  end.

(** A process that changes state with every call but whose answer depends
    on the tile alone. *)
Definition tile_process (n : nat) (tile : Tile) : result (list Z) * nat :=
  (inr [zoom tile; row tile; col tile], S n).

(** The view that [open] returns for tile A on a process in state 0, with
    an empty call log. *)
Definition fresh_view {Feature : Type} : @InputTile.state Feature nat :=
  {| InputTile.self := OutputDataWriter.open sample_writer tile_a 0;
     InputTile.raw_calls := [] |}.

End Sample.

Import Sample.

(** * Properties *)

(** Unfolds the operations of the monad so that a straight-line piece of
    code runs by computation. *)
Ltac run_monad :=
  unfold mbind, mret, M_bind, M_ret, result_bind, result_ret,
    raise, get, modify, lift in *;
  cbn.

(** ** The configuration check *)

Section Validation.

Import OutputDataWriter.

Implicit Types (self : OutputDataWriter.t) (config : pyval).

(** C3 (what the code does).  The first statement of
    [is_valid_with_config] evaluates the name [validate_values], which the
    module neither defines nor imports: the call ends there with
    [NameError], for every configuration.  It returns [True] for none, and
    the geometry test is never reached. *)
Theorem is_valid_with_config_raises_name_error self config :
  is_valid_with_config self config = inl (NameError "validate_values").
Proof. reflexivity. Qed.

(** The configuration of the design document with geometry ["Polygon"],
    well-formed [properties] and a string [path]. *)
Example is_valid_with_config_polygon :
  is_valid_with_config sample_writer (VDict polygon_config)
  = inl (NameError "validate_values").
Proof. reflexivity. Qed.

End Validation.

(** ** The write path *)

Section WriteFacts.

Import OutputDataWriter.

Context {Feature Path BucketResource : Type}.
Variable get_path : gmap string pyval → Tile → Path.
Variable bucket_resource : BucketResource.

Abbreviation event := (@event Feature Path BucketResource).
Abbreviation write := (write get_path bucket_resource).
Implicit Types (self : OutputDataWriter.t) (tr : list event).
Implicit Types (tile : Tile) (tiles : list Tile) (data : list Feature).

(** Every way through [write]. *)
Lemma write_cases self process_tile (data : pydata) tr :
  write self process_tile data tr =
  match data with
  | DNone | DList [] | DOther (Some 0) => (inr tt, tr)
  | DList (x :: l) =>
      match elements (intersecting (pyramid self) process_tile) with
      | [] => (inr tt, tr)
      | tile :: _ =>
          (inl (NameError "write_vector_window"), tr ++ [PreparePath tile])
      end
  | DGenerator _ =>
      (inl (TypeError "object of type 'generator' has no len()"), tr)
  | DOther (Some (S _)) =>
      (inl (TypeError
         "GPKG driver data has to be a list or generator of GeoJSON objects"),
       tr)
  | DOther None => (inl (TypeError "object has no len()"), tr)
  end.
Proof.
  destruct data as [|[|x l]|items|[[|n]|]]; try reflexivity.
  unfold OutputDataWriter.write. cbn -[for_each].
  by destruct (elements (intersecting (pyramid self) process_tile))
    as [|tile tiles].
Qed.

(** C1 (what the code does).  [write] is handed a non-empty list of
    features for a process tile that meets at least one output tile.  In
    the first round of the loop the directory of that tile is prepared;
    then the name [write_vector_window] is evaluated, which the module
    neither defines nor imports (nor [bucket_resource]): the call ends with
    [NameError].  No codec call is made for any tile, and no other tile is
    looked at. *)
Theorem write_stops_at_unbound_codec self process_tile data tr :
  data ≠ [] →
  intersecting (pyramid self) process_tile ≠ ∅ →
  ∃ tile new,
    tile ∈ intersecting (pyramid self) process_tile ∧
    write self process_tile (DList data) tr
      = (inl (NameError "write_vector_window"), tr ++ new) ∧
    new = [PreparePath tile] ∧
    ∀ tile', encode_calls tile' new = [].
Proof.
  intros Hne Htiles. rewrite write_cases.
  destruct data as [|x l]; [done|].
  destruct (elements (intersecting (pyramid self) process_tile))
    as [|tile tiles] eqn:Hel.
  - by apply elements_empty_inv, leibniz_equiv in Hel.
  - exists tile, [PreparePath tile]. split; [|done].
    apply elem_of_elements. rewrite Hel. by left.
Qed.

(** C5.  [write(process_tile, None)] and [write(process_tile, [])] return
    at once: the call returns normally and the trace of collaborator calls
    is the one it started with. *)
Theorem write_none_or_empty_is_noop self process_tile tr :
  write self process_tile DNone tr = (inr tt, tr) ∧
  write self process_tile (DList []) tr = (inr tt, tr).
Proof. split; reflexivity. Qed.

(** C4 (what the code does).  The first guard of [write] asks for
    [len(data)] before the type of [data] is looked at, and a generator has
    no length: for every generator, empty or not, the call ends there with
    a type error; the generator is not consumed and no tile is written. *)
Theorem write_generator_raises self process_tile items tr :
  write self process_tile (DGenerator items) tr
  = (inl (TypeError "object of type 'generator' has no len()"), tr).
Proof. reflexivity. Qed.

(** The type guard proper: an object with a non-zero length that is neither
    a list nor a generator. *)
Lemma write_other_raises self process_tile n tr :
  write self process_tile (DOther (Some (S n))) tr
  = (inl (TypeError
       "GPKG driver data has to be a list or generator of GeoJSON objects"),
     tr).
Proof. reflexivity. Qed.

(** The writer cannot be read by tile. *)
Lemma writer_read_not_implemented self output_tile kwargs tr :
  OutputDataWriter.read (Feature := Feature) self output_tile kwargs tr
  = (inl NotImplementedError, tr).
Proof. reflexivity. Qed.

End WriteFacts.

Lemma two_tile_pyramid_meets :
  intersecting two_tile_pyramid Sample.process_tile ≠ ∅.
Proof.
  intros Hempty.
  assert (tile_a ∈ intersecting two_tile_pyramid Sample.process_tile) as Hin
    by (cbn; set_solver).
  rewrite Hempty in Hin. set_solver.
Qed.

(** An instance of C1: three point features written by the sample
    writer, whose pyramid gives the tiles A and B. *)
Lemma write_stops_at_unbound_codec_witness :
  three_points ≠ [] ∧
  intersecting (OutputDataWriter.pyramid sample_writer) Sample.process_tile
    ≠ ∅ ∧
  ∃ tile new,
    tile ∈ intersecting (OutputDataWriter.pyramid sample_writer)
             Sample.process_tile ∧
    OutputDataWriter.write sample_get_path tt sample_writer
      Sample.process_tile (OutputDataWriter.DList three_points) []
      = (inl (NameError "write_vector_window"), [] ++ new) ∧
    new = [OutputDataWriter.PreparePath tile] ∧
    ∀ tile', OutputDataWriter.encode_calls tile' new = [].
Proof.
  split; [done|]. split; [exact two_tile_pyramid_meets|].
  apply (write_stops_at_unbound_codec sample_get_path tt sample_writer
           Sample.process_tile three_points []);
    [done|exact two_tile_pyramid_meets].
Defined.

(** The scenario of the design document: the process tile meets the output
    tiles A and B only and three point features are written.  One
    directory is prepared and the codec is called for none of the tiles. *)
Example write_scenario_codec_calls :
  let run := OutputDataWriter.write sample_get_path tt sample_writer
               Sample.process_tile (OutputDataWriter.DList three_points) [] in
  run.1 = inl (NameError "write_vector_window") ∧
  length run.2 = 1 ∧
  OutputDataWriter.encode_calls tile_a run.2 = [] ∧
  OutputDataWriter.encode_calls tile_b run.2 = [] ∧
  OutputDataWriter.encode_calls tile_c run.2 = [].
Proof. vm_compute. done. Qed.

(** ** The cached read path *)

Section ViewFacts.

Import InputTile.

Context {Feature Process : Type}.
Variable get_raw_output : Process → Tile → result (list Feature) * Process.

Abbreviation state := (@InputTile.state Feature Process).
Abbreviation _from_cache := (InputTile._from_cache get_raw_output).
Abbreviation read := (InputTile.read get_raw_output).
Abbreviation is_empty := (InputTile.is_empty get_raw_output).

Implicit Types (st : state) (vc validity_check : bool).
Implicit Types (p : Process) (e : exn) (kwargs : gmap string pyval).
Implicit Types (v data : list Feature).

Lemma not_in_cache st vc :
  _cache (self st) !! vc = None →
  bool_decide (vc ∈ dom (_cache (self st))) = false.
Proof.
  intros Hnone. apply bool_decide_eq_false_2.
  rewrite elem_of_dom, Hnone. by intros [? ?].
Qed.

Lemma in_cache st vc v :
  _cache (self st) !! vc = Some v →
  bool_decide (vc ∈ dom (_cache (self st))) = true.
Proof.
  intros Hsome. apply bool_decide_eq_true_2.
  rewrite elem_of_dom, Hsome. by eexists.
Qed.

(** The three ways through [_from_cache]. *)
Lemma from_cache_hit st vc v :
  _cache (self st) !! vc = Some v →
  _from_cache vc st = (inr v, st).
Proof.
  intros Hsome. unfold InputTile._from_cache, cache_getitem. run_monad.
  rewrite (in_cache _ _ _ Hsome). cbn. by rewrite Hsome.
Qed.

Lemma from_cache_miss_ok st vc v p :
  _cache (self st) !! vc = None →
  get_raw_output (process (self st)) (tile (self st)) = (inr v, p) →
  _from_cache vc st = (inr v, cached vc v (called p st)).
Proof.
  intros Hnone Hcall.
  unfold InputTile._from_cache, cache_getitem, cache_setitem,
    call_get_raw_output.
  run_monad. rewrite (not_in_cache _ _ Hnone). cbn.
  rewrite Hcall. cbn. by rewrite lookup_insert_eq.
Qed.

Lemma from_cache_miss_raise st vc e p :
  _cache (self st) !! vc = None →
  get_raw_output (process (self st)) (tile (self st)) = (inl e, p) →
  _from_cache vc st = (inl e, called p st).
Proof.
  intros Hnone Hcall.
  unfold InputTile._from_cache, cache_getitem, cache_setitem,
    call_get_raw_output.
  run_monad. rewrite (not_in_cache _ _ Hnone). cbn.
  by rewrite Hcall.
Qed.

(** A miss costs exactly one call, whatever its outcome. *)
Lemma from_cache_miss_calls st vc :
  _cache (self st) !! vc = None →
  raw_calls (_from_cache vc st).2 = raw_calls st ++ [tile (self st)].
Proof.
  intros Hnone.
  destruct (get_raw_output (process (self st)) (tile (self st)))
    as [[e|v] p] eqn:Hcall.
  - by rewrite (from_cache_miss_raise _ _ _ _ Hnone Hcall).
  - by rewrite (from_cache_miss_ok _ _ _ _ Hnone Hcall).
Qed.

(** What [_from_cache] returns is in the cache afterwards. *)
Lemma from_cache_returns_cached st vc v st' :
  _from_cache vc st = (inr v, st') → _cache (self st') !! vc = Some v.
Proof.
  destruct (_cache (self st) !! vc) as [v0|] eqn:Hlook.
  - rewrite (from_cache_hit _ _ _ Hlook). by intros [= <- <-].
  - destruct (get_raw_output (process (self st)) (tile (self st)))
      as [[e|v1] p] eqn:Hcall.
    + by rewrite (from_cache_miss_raise _ _ _ _ Hlook Hcall).
    + rewrite (from_cache_miss_ok _ _ _ _ Hlook Hcall).
      intros [= <- <-]. cbn. by rewrite lookup_insert_eq.
Qed.

Lemma read_default st vc kwargs :
  read vc false kwargs st = _from_cache vc st.
Proof. reflexivity. Qed.

Lemma is_empty_from_cache st vc :
  is_empty vc st
  = (match (_from_cache vc st).1 with
     | inl e => inl e
     | inr data => inr (length data =? 0)
     end, (_from_cache vc st).2).
Proof.
  unfold InputTile.is_empty. run_monad.
  by destruct (_from_cache vc st) as [[e|data] st'].
Qed.

(** C2.  On a view that holds nothing for either flag, with a process whose
    next two calls succeed: the first read with a flag calls
    [get_raw_output] once and stores what it got under that flag; the
    second read with the same flag returns the same list and leaves the
    state, and so the call log, as it is; a read with the other flag then
    makes one more call and stores its outcome under its own key, next to
    the first. *)
Theorem read_twice_calls_once st vc v v' p p' kwargs kwargs' kwargs'' :
  _cache (self st) !! vc = None →
  _cache (self st) !! negb vc = None →
  get_raw_output (process (self st)) (tile (self st)) = (inr v, p) →
  get_raw_output p (tile (self st)) = (inr v', p') →
  let st1 := cached vc v (called p st) in
  let st2 := cached (negb vc) v' (called p' st1) in
  read vc false kwargs st = (inr v, st1) ∧
  read vc false kwargs' st1 = (inr v, st1) ∧
  raw_calls st1 = raw_calls st ++ [tile (self st)] ∧
  read (negb vc) false kwargs'' st1 = (inr v', st2) ∧
  raw_calls st2 = raw_calls st ++ [tile (self st); tile (self st)] ∧
  _cache (self st2) !! vc = Some v ∧
  _cache (self st2) !! negb vc = Some v'.
Proof.
  intros Hvc Hother Hcall1 Hcall2 st1 st2.
  assert (Hst1 : _cache (self st1) !! vc = Some v)
    by (cbn; by rewrite lookup_insert_eq).
  assert (Hst1' : _cache (self st1) !! negb vc = None).
  { cbn. rewrite lookup_insert_ne by by destruct vc. done. }
  repeat split.
  - by apply from_cache_miss_ok.
  - by apply from_cache_hit.
  - apply (from_cache_miss_ok st1 (negb vc) v' p' Hst1' Hcall2).
  - cbn. by rewrite <- app_assoc.
  - cbn. rewrite lookup_insert_ne by by destruct vc.
    by rewrite lookup_insert_eq.
  - cbn. by rewrite lookup_insert_eq.
Qed.

(** C6.  [__exit__] empties the cache whatever it is told about the way
    the block ended, and the [with] statement runs it after a block that
    returned as well as after a block that raised, handing on the outcome
    of the block.  On the view entered again, and on a view opened anew on
    the same tile and process, a read with any flag is a miss: it makes one
    more call of [get_raw_output]. *)
Theorem exit_clears_cache {A} (body : t → M state A) st exc vc kwargs
    (writer : OutputDataWriter.t) :
  (__exit__ exc st).2 = cleared st ∧
  _cache (self (cleared st)) = ∅ ∧
  (with_ body st).1 = (body (self st) st).1 ∧
  (with_ body st).2 = cleared (body (self st) st).2 ∧
  (__enter__ (cleared st)).2 = cleared st ∧
  raw_calls (read vc false kwargs (cleared st)).2
    = raw_calls st ++ [tile (self st)] ∧
  raw_calls
    (read vc false kwargs
       {| self := OutputDataWriter.open writer (tile (self st))
                    (process (self st));
          raw_calls := raw_calls st |}).2
    = raw_calls st ++ [tile (self st)].
Proof.
  repeat split.
  - unfold with_, __enter__, __exit__. run_monad.
    by destruct (body (self st) st) as [[e|a] st'].
  - unfold with_, __enter__, __exit__. run_monad.
    by destruct (body (self st) st) as [[e|a] st'].
  - rewrite read_default. by rewrite from_cache_miss_calls.
  - rewrite read_default. by rewrite from_cache_miss_calls.
Qed.

(** C7.  From one and the same state, [is_empty] is [read] followed by the
    test for length zero: same exception if the process raises, same state
    afterwards and so the same calls of [get_raw_output].  It answers [True]
    exactly when [read] returns a list without records, and a [read] that
    follows an [is_empty] finds the list in the cache. *)
Theorem is_empty_iff_read_yields_nothing st vc kwargs :
  is_empty vc st
    = (match (read vc false kwargs st).1 with
       | inl e => inl e
       | inr data => inr (length data =? 0)
       end, (read vc false kwargs st).2) ∧
  ((is_empty vc st).1 = inr true ↔
     ∃ data, (read vc false kwargs st).1 = inr data ∧ length data = 0) ∧
  raw_calls (is_empty vc st).2 = raw_calls (read vc false kwargs st).2 ∧
  match is_empty vc st with
  | (inr b, st') =>
      ∃ data, read vc false kwargs st' = (inr data, st') ∧
              b = (length data =? 0)
  | (inl _, _) => True
  end.
Proof.
  rewrite read_default, is_empty_from_cache.
  destruct (_from_cache vc st) as [[e|data] st'] eqn:Hrun; cbn.
  - repeat split; [done|]. by intros (data & [=] & _).
  - repeat split.
    + intros [= Hlen%Nat.eqb_eq]. by exists data.
    + intros (data' & [= <-] & Hlen). by rewrite Hlen.
    + exists data. split; [|done].
      apply from_cache_hit. by eapply from_cache_returns_cached.
Qed.

(** C8.  A call of [get_raw_output] that raises during [read] or
    [is_empty]: the caller gets the very exception, after that one call;
    the cache is the one from before the call, so the flag is still
    absent, and the next read with that flag calls the process again. *)
Theorem get_raw_output_failure_surfaces st vc e p kwargs kwargs' :
  _cache (self st) !! vc = None →
  get_raw_output (process (self st)) (tile (self st)) = (inl e, p) →
  read vc false kwargs st = (inl e, called p st) ∧
  is_empty vc st = (inl e, called p st) ∧
  _cache (self (called p st)) = _cache (self st) ∧
  raw_calls (called p st) = raw_calls st ++ [tile (self st)] ∧
  raw_calls (read vc false kwargs' (called p st)).2
    = raw_calls (called p st) ++ [tile (self st)].
Proof.
  intros Hnone Hcall.
  pose proof (from_cache_miss_raise st vc e p Hnone Hcall) as Hrun.
  repeat split.
  - by rewrite read_default.
  - by rewrite is_empty_from_cache, Hrun.
  - rewrite read_default. by rewrite from_cache_miss_calls.
Qed.

(** C10.  On a view with an empty cache, a read with [validity_check=True]
    and a read with [validity_check=False] do the same thing but for the
    key under which the outcome is stored: each hands back, unchanged, what
    [get_raw_output(tile)] gives for the process as it stands, each makes
    that one call and leaves the process in the same state.  With a
    deterministic process the two reads made one after the other, in either
    order, return the same. *)
Theorem validity_check_only_keys_cache st kwargs :
  _cache (self st) = ∅ →
  let outcome := get_raw_output (process (self st)) (tile (self st)) in
  (∀ vc,
     (read vc false kwargs st).1 = outcome.1 ∧
     process (self (read vc false kwargs st).2) = outcome.2 ∧
     raw_calls (read vc false kwargs st).2
       = raw_calls st ++ [tile (self st)]) ∧
  (read true false kwargs st).1 = (read false false kwargs st).1 ∧
  (deterministic get_raw_output →
   ∀ vc,
     (read (negb vc) false kwargs (read vc false kwargs st).2).1
       = (read vc false kwargs st).1).
Proof.
  intros Hempty outcome.
  assert (Hnone : ∀ vc, _cache (self st) !! vc = None)
    by (intros vc; by rewrite Hempty).
  assert (Hone : ∀ vc,
    (read vc false kwargs st).1 = outcome.1 ∧
    process (self (read vc false kwargs st).2) = outcome.2 ∧
    raw_calls (read vc false kwargs st).2
      = raw_calls st ++ [tile (self st)] ∧
    tile (self (read vc false kwargs st).2) = tile (self st) ∧
    _cache (self (read vc false kwargs st).2) !! negb vc = None).
  { intros vc. rewrite read_default. subst outcome.
    destruct (get_raw_output (process (self st)) (tile (self st)))
      as [[e|v] p] eqn:Hcall.
    - rewrite (from_cache_miss_raise _ _ _ _ (Hnone vc) Hcall). cbn.
      by rewrite Hnone.
    - rewrite (from_cache_miss_ok _ _ _ _ (Hnone vc) Hcall). cbn.
      rewrite lookup_insert_ne by by destruct vc. by rewrite Hnone. }
  split; [|split].
  - intros vc. destruct (Hone vc) as (? & ? & ? & _). done.
  - destruct (Hone true) as [-> _]. by destruct (Hone false) as [-> _].
  - intros Hdet vc. destruct (Hone vc) as (Hres & Hproc & _ & Htile & Hmiss).
    rewrite Hres, read_default.
    set (st1 := (read vc false kwargs st).2) in *.
    destruct (get_raw_output (process (self st1)) (tile (self st1)))
      as [[e|v] p] eqn:Hcall.
    + rewrite (from_cache_miss_raise _ _ _ _ Hmiss Hcall). cbn.
      transitivity (get_raw_output (process (self st1)) (tile (self st1))).1;
        [by rewrite Hcall|].
      rewrite Htile. apply Hdet.
    + rewrite (from_cache_miss_ok _ _ _ _ Hmiss Hcall). cbn.
      transitivity (get_raw_output (process (self st1)) (tile (self st1))).1;
        [by rewrite Hcall|].
      rewrite Htile. apply Hdet.
Qed.

End ViewFacts.

(** ** Instances on sample processes *)

(** An instance of C2: a freshly opened view on the counting process. *)
Lemma read_twice_calls_once_witness :
  let st : @InputTile.state nat nat := fresh_view in
  let st1 := InputTile.cached true [0] (InputTile.called 1 st) in
  let st2 := InputTile.cached false [1] (InputTile.called 2 st1) in
  InputTile._cache (InputTile.self st) !! true = None ∧
  InputTile._cache (InputTile.self st) !! negb true = None ∧
  counting_process 0 tile_a = (inr [0], 1) ∧
  counting_process 1 tile_a = (inr [1], 2) ∧
  InputTile.read counting_process true false ∅ st = (inr [0], st1) ∧
  InputTile.read counting_process true false ∅ st1 = (inr [0], st1) ∧
  InputTile.raw_calls st1 = [tile_a] ∧
  InputTile.read counting_process false false ∅ st1 = (inr [1], st2) ∧
  InputTile.raw_calls st2 = [tile_a; tile_a] ∧
  InputTile._cache (InputTile.self st2) !! true = Some [0] ∧
  InputTile._cache (InputTile.self st2) !! false = Some [1].
Proof.
  intros st st1 st2.
  do 4 (split; [reflexivity|]).
  apply (read_twice_calls_once counting_process st true [0] [1] 1 2 ∅ ∅ ∅);
    reflexivity.
Defined.

(** An instance of C8: a freshly opened view on the process whose first
    call raises. *)
Lemma get_raw_output_failure_surfaces_witness :
  let st : @InputTile.state nat nat := fresh_view in
  let e := Raised "IOError" "upstream output not ready" in
  InputTile._cache (InputTile.self st) !! true = None ∧
  flaky_process 0 tile_a = (inl e, 1) ∧
  InputTile.read flaky_process true false ∅ st
    = (inl e, InputTile.called 1 st) ∧
  InputTile.is_empty flaky_process true st = (inl e, InputTile.called 1 st) ∧
  InputTile._cache (InputTile.self (InputTile.called 1 st)) = ∅ ∧
  InputTile.raw_calls (InputTile.called 1 st) = [tile_a] ∧
  InputTile.raw_calls
    (InputTile.read flaky_process true false ∅ (InputTile.called 1 st)).2
    = [tile_a; tile_a].
Proof.
  intros st e.
  do 2 (split; [reflexivity|]).
  apply (get_raw_output_failure_surfaces flaky_process st true e 1 ∅ ∅);
    reflexivity.
Defined.

Lemma tile_process_deterministic : InputTile.deterministic tile_process.
Proof. intros p p' tile. reflexivity. Qed.

(** An instance of C10: a freshly opened view on the process that answers
    by the tile alone. *)
Lemma validity_check_only_keys_cache_witness :
  let st : @InputTile.state Z nat := fresh_view in
  InputTile._cache (InputTile.self st) = ∅ ∧
  InputTile.deterministic tile_process ∧
  (InputTile.read tile_process true false ∅ st).1
    = (InputTile.read tile_process false false ∅ st).1 ∧
  ∀ vc,
    (InputTile.read tile_process (negb vc) false ∅
       (InputTile.read tile_process vc false ∅ st).2).1
    = (InputTile.read tile_process vc false ∅ st).1.
Proof.
  intros st.
  split; [reflexivity|]. split; [exact tile_process_deterministic|].
  destruct (validity_check_only_keys_cache tile_process st ∅ eq_refl)
    as (_ & Hsame & Hseq).
  split; [exact Hsame|exact (Hseq tile_process_deterministic)].
Defined.

(** ** Operations that are not there *)

Section Unsupported.

Context {Feature Path BucketResource Process : Type}.
Variable get_raw_output : Process → Tile → result (list Feature) * Process.

(** C9.  [read] of the writer raises [NotImplementedError] for every output
    tile and leaves the trace of collaborator calls alone; [read] of a view
    with [no_neighbors=True] raises [NotImplementedError] and leaves the
    view as it found it: same cache, same process, same call log. *)
Theorem unsupported_operations_raise
    (writer : OutputDataWriter.t) (output_tile : BufferedTile)
    (tr : list (@OutputDataWriter.event Feature Path BucketResource))
    (st : @InputTile.state Feature Process) (validity_check : bool)
    (kwargs kwargs' : gmap string pyval) :
  OutputDataWriter.read writer output_tile kwargs tr
    = (inl NotImplementedError, tr) ∧
  InputTile.read get_raw_output validity_check true kwargs' st
    = (inl NotImplementedError, st).
Proof. split; reflexivity. Qed.

End Unsupported.

(** * Further properties of the driver *)

(** ** The write path, case by case *)

Section WriteCases.

Import OutputDataWriter.

Context {Feature Path BucketResource : Type}.
Variable get_path : gmap string pyval → Tile → Path.
Variable bucket_resource : BucketResource.

Abbreviation event := (@event Feature Path BucketResource).
Abbreviation write := (write get_path bucket_resource).

Implicit Types (self : OutputDataWriter.t) (tr new : list event).
Implicit Types (tile : Tile) (tiles : list Tile) (items : list Feature).


(** X4.  A [write] that ends in a type error has made no call on any
    collaborator: no directory was prepared and nothing was handed to the
    codec, whatever [data] was. *)
Theorem write_type_error_makes_no_call
    self process_tile (data : pydata) tr msg tr' :
  write self process_tile data tr = (inl (TypeError msg), tr') →
  tr' = tr.
Proof.
  rewrite write_cases.
  destruct data as [|[|x l]|items|[[|n]|]]; try by intros [= <-].
  by destruct (elements (intersecting (pyramid self) process_tile)).
Qed.

(** X5.  Whatever [data] is, [write] only adds to the trace, and what it
    adds are directory preparations and codec calls: no generator is ever
    run and the line "no features to write" is never logged.  It adds
    something only when [data] is a non-empty list. *)
Theorem write_adds_tile_calls_only self process_tile (data : pydata) tr :
  ∃ new,
    (write self process_tile data tr).2 = tr ++ new ∧
    forallb is_tile_call new = true ∧
    (new ≠ [] → ∃ x l, data = DList (x :: l)).
Proof.
  rewrite write_cases.
  destruct data as [|[|x l]|items|[[|n]|]];
    try (exists []; by rewrite app_nil_r).
  destruct (elements (intersecting (pyramid self) process_tile))
    as [|tile tiles].
  - exists []. by rewrite app_nil_r.
  - exists [PreparePath tile]. split; [done|]. split; [done|].
    intros _. by exists x, l.
Qed.

(** X7.  When no output tile meets the process tile, [write] of any list
    returns without a single call, also for a writer that has no schema. *)
Theorem write_without_intersecting_tiles self process_tile items tr :
  intersecting (pyramid self) process_tile = ∅ →
  write self process_tile (DList items) tr = (inr tt, tr).
Proof.
  intros Htiles. rewrite write_cases, Htiles, elements_empty.
  by destruct items as [|x l].
Qed.


End WriteCases.

(** ** The cached read path over series of calls *)

Section ViewCalls.

Import InputTile.

Context {Feature Process : Type}.
Variable get_raw_output : Process → Tile → result (list Feature) * Process.

Abbreviation state := (@InputTile.state Feature Process).
Abbreviation _from_cache := (InputTile._from_cache get_raw_output).
Abbreviation read := (InputTile.read get_raw_output).
Abbreviation is_empty := (InputTile.is_empty get_raw_output).
Abbreviation after := (InputTile.after get_raw_output).
Abbreviation after_all := (InputTile.after_all get_raw_output).
Abbreviation with_ := (InputTile.with_ (Feature := Feature)
                         (Process := Process)).

Implicit Types (st : state) (vc key : bool) (c : call) (calls : list call).
Implicit Types (p : Process) (e : exn) (kwargs : gmap string pyval).
Implicit Types (v : list Feature).

(** Every way through [_from_cache]. *)
Lemma from_cache_cases st vc :
  _from_cache vc st =
  match _cache (self st) !! vc with
  | Some v => (inr v, st)
  | None =>
      match get_raw_output (process (self st)) (tile (self st)) with
      | (inr v, p) => (inr v, cached vc v (called p st))
      | (inl e, p) => (inl e, called p st)
      end
  end.
Proof.
  destruct (_cache (self st) !! vc) as [v|] eqn:Hlook.
  - by apply from_cache_hit.
  - destruct (get_raw_output (process (self st)) (tile (self st)))
      as [[e|v] p] eqn:Hcall.
    + by apply from_cache_miss_raise.
    + by apply from_cache_miss_ok.
Qed.

(** What a single call can do to the view: nothing, or one call of the
    process for the tile of the view, with or without a new cache entry
    under a flag that had none. *)
Lemma after_cases c st :
  after c st = st ∨
  ∃ vc p,
    _cache (self st) !! vc = None ∧
    ((∃ e, get_raw_output (process (self st)) (tile (self st)) = (inl e, p) ∧
           after c st = called p st) ∨
     (∃ v, get_raw_output (process (self st)) (tile (self st)) = (inr v, p) ∧
           after c st = cached vc v (called p st))).
Proof.
  assert (∀ vc,
    (_from_cache vc st).2 = st ∨
    ∃ p,
      _cache (self st) !! vc = None ∧
      ((∃ e, get_raw_output (process (self st)) (tile (self st)) = (inl e, p) ∧
             (_from_cache vc st).2 = called p st) ∨
       (∃ v, get_raw_output (process (self st)) (tile (self st)) = (inr v, p) ∧
             (_from_cache vc st).2 = cached vc v (called p st)))) as Hfc.
  { intros vc. rewrite from_cache_cases.
    destruct (_cache (self st) !! vc) as [v|] eqn:Hlook; [by left|].
    destruct (get_raw_output (process (self st)) (tile (self st)))
      as [[e|v] p] eqn:Hcall.
    - right. exists p. split; [done|]. left. by exists e.
    - right. exists p. split; [done|]. right. by exists v. }
  destruct c as [vc [|] kwargs|vc]; cbn.
  - by left.
  - destruct (Hfc vc) as [Hsame|(p & Hrest)]; [by left|].
    right. by exists vc, p.
  - rewrite is_empty_from_cache. cbn.
    destruct (Hfc vc) as [Hsame|(p & Hrest)]; [by left|].
    right. by exists vc, p.
Qed.

Lemma after_all_cons c calls st :
  after_all (c :: calls) st = after_all calls (after c st).
Proof. reflexivity. Qed.

Lemma after_keeps_entry c st key v :
  _cache (self st) !! key = Some v →
  _cache (self (after c st)) !! key = Some v.
Proof.
  intros Hkey.
  destruct (after_cases c st)
    as [->|(vc & p & Hnone & [(e & _ & ->)|(v' & _ & ->)])]; [done..|].
  cbn. rewrite lookup_insert_ne; [done|].
  intros Heq. subst vc. by rewrite Hkey in Hnone.
Qed.

Lemma after_keeps_tile c st : tile (self (after c st)) = tile (self st).
Proof.
  by destruct (after_cases c st)
    as [->|(vc & p & Hnone & [(e & _ & ->)|(v' & _ & ->)])].
Qed.

Lemma size_dom_flags (cache : gmap bool (list Feature)) :
  size (dom cache) ≤ 2.
Proof.
  change 2 with (size ({[ true; false ]} : gset bool)).
  apply subseteq_size. intros [|] _; set_solver.
Qed.

Lemma with_run {A} (body : t → M state A) st :
  with_ body st = ((body (self st) st).1, cleared (body (self st) st).2).
Proof.
  unfold InputTile.with_, __enter__, __exit__. run_monad.
  by destruct (body (self st) st) as [[e|a] st'].
Qed.

(** X11.  [read] (without [no_neighbors]) and [is_empty] raise nothing of
    their own: when one of them raises, the flag was not cached and the
    exception is the one [get_raw_output] raised for the tile of the view,
    in the one call that was made. *)
Theorem read_raises_what_process_raises st vc kwargs e st' :
  read vc false kwargs st = (inl e, st') ∨ is_empty vc st = (inl e, st') →
  _cache (self st) !! vc = None ∧
  ∃ p,
    get_raw_output (process (self st)) (tile (self st)) = (inl e, p) ∧
    st' = called p st.
Proof.
  intros Hraise.
  assert (_from_cache vc st = (inl e, st')) as Hrun.
  { destruct Hraise as [Hread|Hempty]; [by rewrite read_default in Hread|].
    rewrite is_empty_from_cache in Hempty.
    destruct (_from_cache vc st) as [[e'|v] st'']; cbn in *;
      by simplify_eq. }
  rewrite from_cache_cases in Hrun.
  destruct (_cache (self st) !! vc) as [v|]; [done|]. split; [done|].
  destruct (get_raw_output (process (self st)) (tile (self st)))
    as [[e'|v] p]; [|done].
  exists p. by injection Hrun as -> ->.
Qed.

(** X12.  A list that is in the cache under a flag stays there through any
    series of reads and emptiness tests, with either flag and whether they
    return or raise: afterwards [read] with that flag still returns that
    list and [is_empty] answers for that list, both without a call to the
    process. *)
Theorem cached_list_is_stable st key v calls kwargs :
  _cache (self st) !! key = Some v →
  _cache (self (after_all calls st)) !! key = Some v ∧
  read key false kwargs (after_all calls st)
    = (inr v, after_all calls st) ∧
  is_empty key (after_all calls st)
    = (inr (length v =? 0), after_all calls st).
Proof.
  intros Hkey.
  assert (_cache (self (after_all calls st)) !! key = Some v) as Hafter.
  { revert st Hkey. induction calls as [|c calls IH]; intros st Hkey;
      [done|].
    rewrite after_all_cons. apply IH. by apply after_keeps_entry. }
  split; [done|]. split.
  - rewrite read_default. by apply from_cache_hit.
  - rewrite is_empty_from_cache.
    by rewrite (from_cache_hit _ _ _ _ Hafter).
Qed.

(** X13.  Through any series of reads and emptiness tests the view stays
    on its tile, and the process is asked for that tile only, at most
    once per call of the series. *)
Theorem calls_go_to_the_tile_of_the_view st calls :
  tile (self (after_all calls st)) = tile (self st) ∧
  ∃ n,
    n ≤ length calls ∧
    raw_calls (after_all calls st)
      = raw_calls st ++ replicate n (tile (self st)).
Proof.
  revert st. induction calls as [|c calls IH]; intros st.
  - split; [done|]. exists 0. split; [done|]. cbn. by rewrite app_nil_r.
  - rewrite after_all_cons.
    destruct (IH (after c st)) as (Htile & n & Hn & Hcalls).
    rewrite after_keeps_tile in Htile, Hcalls.
    split; [done|]. rewrite Hcalls.
    destruct (after_cases c st)
      as [->|(vc & p & Hnone & [(e & _ & ->)|(v' & _ & ->)])].
    + exists n. split; [cbn; lia|done].
    + exists (S n). split; [cbn; lia|]. cbn. by rewrite <- app_assoc.
    + exists (S n). split; [cbn; lia|]. cbn. by rewrite <- app_assoc.
Qed.

(** X14.  With a process that never raises, a series of reads and
    emptiness tests costs one call of [get_raw_output] per flag that gets
    cached on the way, and so at most two calls, however long the series
    is. *)
Theorem at_most_one_call_per_flag st calls :
  never_raises get_raw_output →
  length (raw_calls (after_all calls st)) + size (dom (_cache (self st)))
    = length (raw_calls st)
      + size (dom (_cache (self (after_all calls st)))) ∧
  length (raw_calls (after_all calls st)) ≤ length (raw_calls st) + 2.
Proof.
  intros Hok.
  assert (length (raw_calls (after_all calls st))
            + size (dom (_cache (self st)))
          = length (raw_calls st)
            + size (dom (_cache (self (after_all calls st))))) as Hcount.
  { revert st. induction calls as [|c calls IH]; intros st; [done|].
    rewrite after_all_cons. specialize (IH (after c st)).
    destruct (after_cases c st)
      as [Hsame|(vc & p & Hnone & [(e & Hcall & _)|(v' & _ & Hafter)])].
    - by rewrite Hsame in *.
    - destruct (Hok (process (self st)) (tile (self st))) as (v & p' & Hv).
      congruence.
    - rewrite Hafter in *. cbn in IH.
      rewrite dom_insert_L, size_union, size_singleton, length_app in IH;
        [cbn in IH; lia|].
      apply disjoint_singleton_l. by apply not_elem_of_dom. }
  split; [done|].
  pose proof (size_dom_flags (_cache (self (after_all calls st)))). lia.
Qed.

(** X15.  Nothing of one [with] block reaches the next: after a block,
    whatever it did, a [read] in a new block on the same view returns what
    [get_raw_output] answers now, costs that one call, and leaves the cache
    empty again. *)
Theorem read_in_new_block_asks_process {A} (body : t → M state A)
    st vc kwargs :
  let st1 := (with_ body st).2 in
  let outcome := get_raw_output (process (self st1)) (tile (self st1)) in
  with_ (λ _, read vc false kwargs) st1
  = (outcome.1, cleared (called outcome.2 st1)).
Proof.
  intros st1 outcome. rewrite with_run, read_default, from_cache_cases.
  assert (_cache (self st1) !! vc = None) as ->.
  { subst st1. by rewrite with_run. }
  subst outcome.
  by destruct (get_raw_output (process (self st1)) (tile (self st1)))
    as [[e|v] p].
Qed.

End ViewCalls.

(** ** Instances of the further properties *)

(** An instance of X4: a generator of three features. *)
Lemma write_type_error_makes_no_call_witness :
  OutputDataWriter.write sample_get_path tt sample_writer Sample.process_tile
    (OutputDataWriter.DGenerator three_points) []
  = (inl (TypeError "object of type 'generator' has no len()"), []) ∧
  @nil (@OutputDataWriter.event string (string * Tile) unit) = [].
Proof.
  split; [reflexivity|].
  apply (write_type_error_makes_no_call sample_get_path tt sample_writer
           Sample.process_tile (OutputDataWriter.DGenerator three_points) []
           "object of type 'generator' has no len()" []).
  reflexivity.
Defined.

(** An instance of X7: the writer whose pyramid meets no process tile. *)
Lemma write_without_intersecting_tiles_witness :
  intersecting (OutputDataWriter.pyramid remote_writer) Sample.process_tile
    = ∅ ∧
  OutputDataWriter.write sample_get_path tt remote_writer
    Sample.process_tile (OutputDataWriter.DList three_points) []
  = (inr tt, []).
Proof.
  split; [reflexivity|].
  apply (write_without_intersecting_tiles sample_get_path tt remote_writer
           Sample.process_tile three_points []).
  reflexivity.
Defined.

(** An instance of X11: a read on a freshly opened view of the process
    whose first call raises. *)
Lemma read_raises_what_process_raises_witness :
  let st : @InputTile.state nat nat := fresh_view in
  let e := Raised "IOError" "upstream output not ready" in
  (InputTile.read flaky_process true false ∅ st
     = (inl e, InputTile.called 1 st) ∨
   InputTile.is_empty flaky_process true st
     = (inl e, InputTile.called 1 st)) ∧
  InputTile._cache (InputTile.self st) !! true = None ∧
  ∃ p,
    flaky_process (InputTile.process (InputTile.self st))
      (InputTile.tile (InputTile.self st)) = (inl e, p) ∧
    InputTile.called 1 st = InputTile.called p st.
Proof.
  intros st e.
  assert (InputTile.read flaky_process true false ∅ st
            = (inl e, InputTile.called 1 st) ∨
          InputTile.is_empty flaky_process true st
            = (inl e, InputTile.called 1 st)) as Hraise
    by (left; reflexivity).
  split; [exact Hraise|].
  exact (read_raises_what_process_raises flaky_process st true ∅ e
           (InputTile.called 1 st) Hraise).
Defined.

(** An instance of X12: the list cached by a first read, then an emptiness
    test with the other flag, an unsupported read and a read with the other
    flag. *)
Lemma cached_list_is_stable_witness :
  let st : @InputTile.state nat nat :=
    InputTile.cached true [0] (InputTile.called 1 fresh_view) in
  let calls := [InputTile.IsEmpty false; InputTile.Read true true ∅;
                InputTile.Read false false ∅] in
  let st' := InputTile.after_all counting_process calls st in
  InputTile._cache (InputTile.self st) !! true = Some [0] ∧
  InputTile._cache (InputTile.self st') !! true = Some [0] ∧
  InputTile.read counting_process true false ∅ st' = (inr [0], st') ∧
  InputTile.is_empty counting_process true st' = (inr (length [0] =? 0), st').
Proof.
  intros st calls st'.
  split; [reflexivity|].
  apply (cached_list_is_stable counting_process st true [0] calls ∅).
  reflexivity.
Defined.

Lemma counting_process_never_raises : InputTile.never_raises counting_process.
Proof. intros p tile. by exists [p], (S p). Qed.

(** An instance of X14: five calls on a freshly opened view of the counting
    process. *)
Lemma at_most_one_call_per_flag_witness :
  let st : @InputTile.state nat nat := fresh_view in
  let calls := [InputTile.Read true false ∅; InputTile.IsEmpty true;
                InputTile.Read false false ∅; InputTile.Read true false ∅;
                InputTile.IsEmpty false] in
  let st' := InputTile.after_all counting_process calls st in
  InputTile.never_raises counting_process ∧
  length (InputTile.raw_calls st')
    + size (dom (InputTile._cache (InputTile.self st)))
  = length (InputTile.raw_calls st)
    + size (dom (InputTile._cache (InputTile.self st'))) ∧
  length (InputTile.raw_calls st') ≤ length (InputTile.raw_calls st) + 2.
Proof.
  intros st calls st'.
  split; [exact counting_process_never_raises|].
  exact (at_most_one_call_per_flag counting_process st calls
           counting_process_never_raises).
Defined.

(** The five calls of the instance above make two calls of the process. *)
Example five_calls_two_process_calls :
  InputTile.raw_calls
    (InputTile.after_all counting_process
       [InputTile.Read true false ∅; InputTile.IsEmpty true;
        InputTile.Read false false ∅; InputTile.Read true false ∅;
        InputTile.IsEmpty false]
       (fresh_view (Feature := nat)))
  = [tile_a; tile_a].
Proof. vm_compute. reflexivity. Qed.
